(** * Hook dispatcher of Schemathesis ([src/schemathesis/hooks.py])

    A shallow embedding of the hook registration and dispatch code, and
    the properties its specification states about it.

    Python objects that the code mutates are kept in an explicit store:
    - every [HookDispatcher] instance is a reference into [heap], whose
      cell is the instance's [_hooks] dict;
    - the class attribute [HookDispatcher._specs] is one dict of the world;
    - the attribute [_schemathesis_hooks] that [apply] injects into a test
      function is a side table from the function's identity to the
      reference of the attached dispatcher;
    - [warnings.warn] appends to a log.
    A hook is user code: besides returning or raising, its body may read
    the store and write to it through the operations of this module, and
    [dispatch] leaves the store as the body left it.
    Functions of the module are computations in a state-and-exception
    monad over that store; what was written before an exception is raised
    stays written, as in Python. *)

From stdpp Require Import base option strings pretty list gmap fin_maps.

Open Scope string_scope.

(** ** Data *)

(** First-order values that the framework passes to hooks and that hooks
    return ([Any] in the source); [VObj] is an opaque object such as a
    strategy or a [HookContext]. *)
Inductive Value : Type :=
  | VNone
  | VBool (b : bool)
  | VInt (z : Z)
  | VStr (s : string)
  | VObj (id : positive).

(** An exception raised by the body of a hook, opaque to this module. *)
Record PyExc : Type := { exc_type : string; exc_message : string }.

Inductive CallResult : Type :=
  | Returned (v : Value)
  | Raised (e : PyExc).

Inductive WarningCategory : Type := DeprecationWarning | UserWarning.

Record Warning : Type := { category : WarningCategory; message : string }.

(** What the body of a function can observe of the store when it is
    called: the declared specs, the hooks of every dispatcher by the
    identity of the registered function, the attachments and the warnings
    so far. *)
Record StoreView : Type := {
  seen_specs : gmap string (list string);
  seen_hooks : gmap positive (gmap string positive);
  seen_attrs : gmap positive positive;
  seen_warnings : list Warning
}.

(** A write to the store that the body of a function makes while it runs,
    over function objects [F]: a registration on the dispatcher [d] that
    went through, [d.unregister_all()], [HookDispatcher.register_spec(spec)]
    and [warnings.warn]. *)
Inductive Write (F : Type) : Type :=
  | SetsHook (d : positive) (name : string) (hook : F)
  | ClearsHooks (d : positive)
  | DeclaresSpec (spec : F)
  | Warns (wn : Warning).
Arguments SetsHook {F} d name hook.
Arguments ClearsHooks {F} d.
Arguments DeclaresSpec {F} spec.
Arguments Warns {F} wn.

(** A Python function object: its identity, its [__name__], the names of
    the parameters that [inspect.signature] reports, and what calling it
    with positional and keyword arguments does in the store it sees: what
    it returns or raises, and the writes it has made by then, in order. *)
#[warnings="-register-all"]
Inductive Callable : Type := {
  obj_id : positive;
  __name__ : string;
  parameters : list string;
  body : list Value -> list (string * Value) -> StoreView
         -> CallResult * list (Write Callable)
}.

(** [Union[str, Callable]], the argument type of the [register] functions. *)
Inductive Arg : Type :=
  | AStr (s : string)
  | ACallable (c : Callable).

Inductive Exn : Type :=
  | TypeError (msg : string)
  | KeyError (key : Arg)
  (** [TypeError] of [inspect.signature] for an object that is not callable *)
  | NotCallable (o : string)
  (** an exception of a hook body, passed on unchanged *)
  | Propagated (e : PyExc).

(** A reference to a [HookDispatcher] instance. *)
Abbreviation ref := positive (only parsing).

Record World : Type := {
  _specs : gmap string (list string);
  heap : gmap positive (gmap string Callable);
  fn_attrs : gmap positive positive;
  emitted : list Warning
}.

(** The [_hooks] dict of the instance [self]. A reference that is not in
    the store reads as an empty dict; the module itself only ever holds
    references that [new_dispatcher] returned. *)
Definition _hooks (w : World) (self : ref) : gmap string Callable :=
  default ∅ (heap w !! self).

(** ** The monad *)

Inductive Outcome (A : Type) : Type :=
  | Ok (a : A)
  | Raise (e : Exn).
Arguments Ok {A} a.
Arguments Raise {A} e.

Definition M (A : Type) : Type := World -> Outcome A * World.

Definition ret {A} (a : A) : M A := fun w => (Ok a, w).

Definition raise {A} (e : Exn) : M A := fun w => (Raise e, w).

Definition bind {A B} (m : M A) (k : A -> M B) : M B :=
  fun w =>
    match m w with
    | (Ok a, w') => k a w'
    | (Raise e, w') => (Raise e, w')
    end.

#[global] Instance M_ret : MRet M := @ret.
#[global] Instance M_bind : MBind M := fun A B k m => bind m k.

(** ** Primitive effects *)

(** [warnings.warn(message, category)] *)
Definition warn (c : WarningCategory) (msg : string) : M unit :=
  fun w =>
    (Ok tt,
     {| _specs := _specs w; heap := heap w; fn_attrs := fn_attrs w;
        emitted := emitted w ++ [ {| category := c; message := msg |} ] |}).

(** [self._hooks[name] = hook] *)
Definition set_hook (self : ref) (name : string) (hook : Callable) : M unit :=
  fun w =>
    (Ok tt,
     {| _specs := _specs w;
        heap := <[self := <[name := hook]> (_hooks w self)]> (heap w);
        fn_attrs := fn_attrs w; emitted := emitted w |}).

(** [HookDispatcher()]: a new object, distinct from every live one, whose
    [_hooks] is a new empty dict ([attr.ib(factory=dict)]). *)
Definition new_dispatcher : M ref :=
  fun w =>
    let l := fresh (dom (heap w)) in
    (Ok l,
     {| _specs := _specs w; heap := <[l := ∅]> (heap w);
        fn_attrs := fn_attrs w; emitted := emitted w |}).

(** [func._schemathesis_hooks = d] *)
Definition set_attr (func : Callable) (d : ref) : M unit :=
  fun w =>
    (Ok tt,
     {| _specs := _specs w; heap := heap w;
        fn_attrs := <[obj_id func := d]> (fn_attrs w); emitted := emitted w |}).

(** [getattr(func, "_schemathesis_hooks", None)] *)
Definition get_attr (func : Callable) : M (option ref) :=
  fun w => (Ok (fn_attrs w !! obj_id func), w).

(** ** Calling user code *)

(** The store as the body of a function sees it. *)
Definition view (w : World) : StoreView :=
  {| seen_specs := _specs w;
     seen_hooks := (fun hooks : gmap string Callable => obj_id <$> hooks) <$> heap w;
     seen_attrs := fn_attrs w;
     seen_warnings := emitted w |}.

(** One write of a body, done to the store. *)
Definition perform (wr : Write Callable) (w : World) : World :=
  match wr with
  | SetsHook d name hook => (set_hook d name hook w).2
  | ClearsHooks d =>
      {| _specs := _specs w; heap := <[d := ∅]> (heap w);
         fn_attrs := fn_attrs w; emitted := emitted w |}
  | DeclaresSpec spec =>
      {| _specs := <[__name__ spec := parameters spec]> (_specs w);
         heap := heap w; fn_attrs := fn_attrs w; emitted := emitted w |}
  | Warns wn =>
      {| _specs := _specs w; heap := heap w; fn_attrs := fn_attrs w;
         emitted := emitted w ++ [wn] |}
  end.

(** The writes of a body, done in their order. *)
Definition run_writes (writes : list (Write Callable)) (w : World) : World :=
  foldl (fun acc wr => perform wr acc) w writes.

(** ** [warn_deprecated_hook] *)

Definition no_context_message : string :=
  "Hook functions that do not accept `context` argument are deprecated and "
  ++ "support will be removed in Schemathesis 2.0.".

Definition warn_deprecated_hook (hook : Callable) : M unit :=
  if bool_decide ("context" ∈ parameters hook) then ret tt
  else warn DeprecationWarning no_context_message.

(** ** class [HookDispatcher] *)

Module HookDispatcher.

Definition _validate_hook (name : string) (hook : Callable) : M unit :=
  fun w =>
    match _specs w !! name with
    | None =>
        (Raise (TypeError ("There is no hook with name '" ++ name ++ "'")), w)
    | Some spec =>
        if decide (length (parameters hook) ≠ length spec) then
          (Raise (TypeError
             ("Hook '" ++ name ++ "' takes " ++ pretty (length spec)
              ++ " arguments but " ++ pretty (length (parameters hook))
              ++ " is defined")), w)
        else (Ok tt, w)
    end.

Definition register_hook_with_name
    (self : ref) (name : string) (hook : Callable) (skip_validation : bool)
    : M Callable :=
  (if negb skip_validation then _validate_hook name hook else ret tt);;
  set_hook self name hook;;
  ret hook.

(** What [register] returns: the registered hook, or the decorator
    closure of the form with a name. *)
Inductive Registration : Type :=
  | Hook (h : Callable)
  | Decorator (d : Callable -> M Callable).

Definition register (self : ref) (hook : Arg) : M Registration :=
  match hook with
  | AStr hook_name =>
      ret (Decorator (fun func => register_hook_with_name self hook_name func false))
  | ACallable h =>
      r ← register_hook_with_name self (__name__ h) h false;
      ret (Hook r)
  end.

(** [apply] only builds the closure; [self] is captured for
    [self.__class__()]. *)
Definition apply (self : ref) (name : string) (hook : Callable)
    : Callable -> M Callable :=
  fun func =>
    a ← get_attr func;
    d ← match a with
        | Some d => ret d
        | None => d ← new_dispatcher; set_attr func d;; ret d
        end;
    register_hook_with_name d name hook false;;
    ret func.

(** [@classmethod register_spec] *)
Definition register_spec (spec : Callable) : M Callable :=
  fun w =>
    (Ok spec,
     {| _specs := <[__name__ spec := parameters spec]> (_specs w);
        heap := heap w; fn_attrs := fn_attrs w; emitted := emitted w |}).

Definition dispatch (self : ref) (name : string)
    (args : list Value) (kwargs : list (string * Value)) : M Value :=
  fun w =>
    match _hooks w self !! name with
    | None => (Ok VNone, w)
    | Some hook =>
        let (result, writes) := body hook args kwargs (view w) in
        match result with
        | Returned v => (Ok v, run_writes writes w)
        | Raised e => (Raise (Propagated e), run_writes writes w)
        end
    end.

Definition get_hook (self : ref) (name : string) : M (option Callable) :=
  fun w => (Ok (_hooks w self !! name), w).

Definition unregister_all (self : ref) : M unit :=
  fun w =>
    (Ok tt,
     {| _specs := _specs w; heap := <[self := ∅]> (heap w);
        fn_attrs := fn_attrs w; emitted := emitted w |}).

End HookDispatcher.

(** ** Module level *)

(** The body of a [def] whose only statement is [pass]: the call binds
    positional arguments to the leading parameters and keyword arguments
    to the remaining ones, and returns [None]; it writes nothing. *)
Definition pass_body (params : list string)
    (args : list Value) (kwargs : list (string * Value)) (seen : StoreView)
    : CallResult * list (Write Callable) :=
  if bool_decide ((length args ≤ length params)%nat
                  ∧ kwargs.*1 ≡ₚ drop (length args) params)
  then (Returned VNone, [])
  else (Raised {| exc_type := "TypeError"; exc_message := "bad call" |}, []).

(** The hook specifications all have the signature [(strategy, context)]. *)
Definition spec_function (id : positive) (name : string) : Callable :=
  {| obj_id := id; __name__ := name;
     parameters := ["strategy"; "context"];
     body := pass_body ["strategy"; "context"] |}.

Definition before_generate_path_parameters : Callable :=
  spec_function 1 "before_generate_path_parameters".
Definition before_generate_headers : Callable :=
  spec_function 2 "before_generate_headers".
Definition before_generate_cookies : Callable :=
  spec_function 3 "before_generate_cookies".
Definition before_generate_query : Callable :=
  spec_function 4 "before_generate_query".
Definition before_generate_body : Callable :=
  spec_function 5 "before_generate_body".
Definition before_generate_form_data : Callable :=
  spec_function 6 "before_generate_form_data".

(** Executing the module: the six [@HookDispatcher.register_spec]
    definitions, then [GLOBAL_HOOK_DISPATCHER = HookDispatcher()]. *)
Definition module_body : M ref :=
  HookDispatcher.register_spec before_generate_path_parameters;;
  HookDispatcher.register_spec before_generate_headers;;
  HookDispatcher.register_spec before_generate_cookies;;
  HookDispatcher.register_spec before_generate_query;;
  HookDispatcher.register_spec before_generate_body;;
  HookDispatcher.register_spec before_generate_form_data;;
  new_dispatcher.

Definition empty_world : World :=
  {| _specs := ∅; heap := ∅; fn_attrs := ∅; emitted := [] |}.

(** The world once the module is imported. *)
Definition imported : World := (module_body empty_world).2.

Definition GLOBAL_HOOK_DISPATCHER : ref := 1%positive.

Definition dispatch := HookDispatcher.dispatch GLOBAL_HOOK_DISPATCHER.

Definition unregister_all := HookDispatcher.unregister_all GLOBAL_HOOK_DISPATCHER.

Definition two_arguments_message : string :=
  "Calling `schemathesis.register` with two arguments is deprecated, "
  ++ "use it as a decorator instead.".

Section Legacy.

(** The member names of the enum [HookLocation] of [constants.py]. *)
Variable HookLocation_members : list string.

Definition register (args : list Arg) : M HookDispatcher.Registration :=
  match args with
  | [hook] => HookDispatcher.register GLOBAL_HOOK_DISPATCHER hook
  | [place; hook] =>
      warn DeprecationWarning two_arguments_message;;
      match hook with
      | AStr s =>
          (* [cast] checks nothing; [inspect.signature] rejects a [str] *)
          raise (NotCallable s)
      | ACallable h =>
          warn_deprecated_hook h;;
          match place with
          | AStr p =>
              if bool_decide (p ∈ HookLocation_members) then
                r ← HookDispatcher.register_hook_with_name
                      GLOBAL_HOOK_DISPATCHER ("before_generate_" ++ p) h true;
                ret (HookDispatcher.Hook r)
              else raise (KeyError place)
          | ACallable _ => raise (KeyError place)
          end
      end
  | _ =>
      raise (TypeError
        "Invalid number of arguments. Please, use `register` as a decorator.")
  end.

End Legacy.

(** ** Decorator stacks *)

(** Python applies stacked decorators from the one nearest to the [def]
    upwards: [@d1 @d2 def f] binds [f] to [d1(d2(f))]. The list is in
    source order, topmost decorator first. *)
Fixpoint decorated (stack : list (Callable -> M Callable)) (func : Callable)
    : M Callable :=
  match stack with
  | [] => ret func
  | d :: below => f ← decorated below func; d f
  end.

(** ** Notions used in the statements *)

(** The world after [self._hooks[name] = hook]. *)
Definition store_hook (self : ref) (name : string) (hook : Callable)
    (w : World) : World :=
  (set_hook self name hook w).2.

(** [hook] passes [_validate_hook] under [name]: a spec is declared for
    [name] and has as many parameters as [hook]. *)
Definition conforms (w : World) (name : string) (hook : Callable) : Prop :=
  ∃ spec, _specs w !! name = Some spec
          ∧ length (parameters hook) = length spec.

(** The first half of the decorator of [apply]: the dispatcher attached
    to [func], created and attached when there is none, and the world then. *)
Definition with_dispatcher (func : Callable) (w : World) : ref * World :=
  match fn_attrs w !! obj_id func with
  | Some d => (d, w)
  | None =>
      let d := fresh (dom (heap w)) in
      (d, {| _specs := _specs w; heap := <[d := ∅]> (heap w);
             fn_attrs := <[obj_id func := d]> (fn_attrs w);
             emitted := emitted w |})
  end.

(** The world after the warnings [ws]. *)
Definition warned (ws : list Warning) (w : World) : World :=
  {| _specs := _specs w; heap := heap w; fn_attrs := fn_attrs w;
     emitted := emitted w ++ ws |}.

Definition two_arguments_warning : Warning :=
  {| category := DeprecationWarning; message := two_arguments_message |}.

Definition no_context_warning : Warning :=
  {| category := DeprecationWarning; message := no_context_message |}.

(** What the two-argument form of [register] emits for [hook] before it
    looks at the place. *)
Definition legacy_warnings (hook : Callable) : list Warning :=
  two_arguments_warning
  :: (if bool_decide ("context" ∈ parameters hook) then []
      else [no_context_warning]).

Definition unknown_hook_message (name : string) : string :=
  "There is no hook with name '" ++ name ++ "'".

Definition arity_message (name : string) (expected actual : nat) : string :=
  "Hook '" ++ name ++ "' takes " ++ pretty expected
  ++ " arguments but " ++ pretty actual ++ " is defined".

(** ** Sample functions, after [test/hooks/test_hooks.py] *)

(** [def replacement(context, strategy): return st.just({"id": "foobar"})] *)
Definition replacement : Callable :=
  {| obj_id := 101; __name__ := "replacement";
     parameters := ["context"; "strategy"];
     body := fun _ _ _ => (Returned (VObj 1001), []) |}.

(** [def another_replacement(context, strategy): return st.just({"id": "foobaz"})] *)
Definition another_replacement : Callable :=
  {| obj_id := 102; __name__ := "another_replacement";
     parameters := ["context"; "strategy"];
     body := fun _ _ _ => (Returned (VObj 1002), []) |}.

(** [def third_replacement(context, strategy): return st.just({"value": "spam"})] *)
Definition third_replacement : Callable :=
  {| obj_id := 103; __name__ := "third_replacement";
     parameters := ["context"; "strategy"];
     body := fun _ _ _ => (Returned (VObj 1003), []) |}.

(** [def hook(): pass] of [test_register_invalid_hook_name] *)
Definition hook_without_parameters : Callable :=
  {| obj_id := 104; __name__ := "hook"; parameters := [];
     body := pass_body [] |}.

(** [def before_generate_query(a, b, c): pass] of
    [test_register_invalid_hook_spec] *)
Definition hook_with_three_parameters : Callable :=
  {| obj_id := 105; __name__ := "before_generate_query";
     parameters := ["a"; "b"; "c"];
     body := pass_body ["a"; "b"; "c"] |}.

(** [def before_generate_query(context, strategy): pass], a hook that
    conforms to its spec and returns [None]. *)
Definition hook_returning_none : Callable :=
  {| obj_id := 106; __name__ := "before_generate_query";
     parameters := ["context"; "strategy"];
     body := pass_body ["context"; "strategy"] |}.

(** [def hook(strategy): return strategy], a hook of the old calling
    convention, with one parameter instead of two. *)
Definition legacy_hook : Callable :=
  {| obj_id := 107; __name__ := "hook"; parameters := ["strategy"];
     body := fun args _ _ => (Returned (default VNone (head args)), []) |}.

(** A hook that resets the global dispatcher and warns before it returns
    its strategy:
    [def before_generate_query(context, strategy):
         schemathesis.hooks.unregister_all()
         warnings.warn("reset")
         return strategy] *)
Definition resetting_hook : Callable :=
  {| obj_id := 108; __name__ := "before_generate_query";
     parameters := ["context"; "strategy"];
     body := fun args _ _ =>
       (Returned (default VNone (args !! 1%nat)),
        [ClearsHooks GLOBAL_HOOK_DISPATCHER;
         Warns {| category := UserWarning; message := "reset" |}]) |}.

(** [def test_c(case): ...], a test function. *)
Definition test_c : Callable :=
  {| obj_id := 201; __name__ := "test_c"; parameters := ["case"];
     body := pass_body ["case"] |}.

(** [def test_a(case): ...], another test function. *)
Definition test_a : Callable :=
  {| obj_id := 202; __name__ := "test_a"; parameters := ["case"];
     body := pass_body ["case"] |}.

(** The names of the specs that the module declares, in source order. *)
Definition declared_names : list string :=
  ["before_generate_path_parameters"; "before_generate_headers";
   "before_generate_cookies"; "before_generate_query";
   "before_generate_body"; "before_generate_form_data"].

(** The places for which the module declares a [before_generate_<place>]
    spec, as an instance of the member names of [HookLocation]. *)
Definition declared_places : list string :=
  ["path_parameters"; "headers"; "cookies"; "query"; "body"; "form_data"].

(** ** Running the monad *)

Lemma bind_Ok {A B} (m : M A) (k : A -> M B) (w w' : World) (a : A) :
  m w = (Ok a, w') → (m ≫= k) w = k a w'.
Proof. intros E. unfold mbind, M_bind, bind. by rewrite E. Qed.

Lemma bind_Raise {A B} (m : M A) (k : A -> M B) (w w' : World) (e : Exn) :
  m w = (Raise e, w') → (m ≫= k) w = (Raise e, w').
Proof. intros E. unfold mbind, M_bind, bind. by rewrite E. Qed.

Lemma world_eq (w1 w2 : World) :
  _specs w1 = _specs w2 → heap w1 = heap w2 → fn_attrs w1 = fn_attrs w2 →
  emitted w1 = emitted w2 → w1 = w2.
Proof. destruct w1, w2; simpl; congruence. Qed.

(** ** The store after a write *)

Lemma hooks_store_hook_eq (w : World) (self : ref) (name : string) (hook : Callable) :
  _hooks (store_hook self name hook w) self = <[name := hook]> (_hooks w self).
Proof. unfold store_hook, set_hook, _hooks; simpl. by rewrite lookup_insert_eq. Qed.

Lemma hooks_store_hook_ne (w : World) (self other : ref) (name : string) (hook : Callable) :
  other ≠ self →
  _hooks (store_hook self name hook w) other = _hooks w other.
Proof.
  intros Hne. unfold store_hook, set_hook, _hooks; simpl.
  by rewrite lookup_insert_ne.
Qed.

Lemma store_hook_twice (w : World) (self : ref) (name : string) (h1 h2 : Callable) :
  store_hook self name h2 (store_hook self name h1 w) = store_hook self name h2 w.
Proof.
  apply world_eq; try reflexivity.
  change (heap (store_hook self name h2 (store_hook self name h1 w)))
    with (<[self := <[name := h2]> (_hooks (store_hook self name h1 w) self)]>
            (heap (store_hook self name h1 w))).
  rewrite hooks_store_hook_eq, insert_insert_eq.
  unfold store_hook, set_hook; simpl. by rewrite insert_insert_eq.
Qed.

(** ** Validation *)

Lemma validate_unknown (w : World) (name : string) (hook : Callable) :
  _specs w !! name = None →
  HookDispatcher._validate_hook name hook w
  = (Raise (TypeError (unknown_hook_message name)), w).
Proof. intros E. unfold HookDispatcher._validate_hook. by rewrite E. Qed.

Lemma validate_mismatch (w : World) (name : string) (hook : Callable) (spec : list string) :
  _specs w !! name = Some spec →
  length (parameters hook) ≠ length spec →
  HookDispatcher._validate_hook name hook w
  = (Raise (TypeError
       (arity_message name (length spec) (length (parameters hook)))), w).
Proof.
  intros E Hne. unfold HookDispatcher._validate_hook. rewrite E.
  by destruct (decide _).
Qed.

Lemma validate_conforms (w : World) (name : string) (hook : Callable) :
  conforms w name hook →
  HookDispatcher._validate_hook name hook w = (Ok tt, w).
Proof.
  intros (spec & E & Hlen). unfold HookDispatcher._validate_hook. rewrite E.
  by destruct (decide _).
Qed.

Lemma validate_cases (w : World) (name : string) (hook : Callable) :
  (conforms w name hook
   ∧ HookDispatcher._validate_hook name hook w = (Ok tt, w))
  ∨ (∃ msg, HookDispatcher._validate_hook name hook w
            = (Raise (TypeError msg), w)).
Proof.
  destruct (_specs w !! name) as [spec|] eqn:E.
  - destruct (decide (length (parameters hook) = length spec)) as [Hl|Hl].
    + left. assert (conforms w name hook) by (by exists spec).
      split; [done | by apply validate_conforms].
    + right. eexists. by apply validate_mismatch.
  - right. eexists. by apply validate_unknown.
Qed.

Lemma register_skipping_validation (w : World) (self : ref) (name : string) (hook : Callable) :
  HookDispatcher.register_hook_with_name self name hook true w
  = (Ok hook, store_hook self name hook w).
Proof. reflexivity. Qed.

Lemma register_conforming (w : World) (self : ref) (name : string) (hook : Callable) :
  conforms w name hook →
  HookDispatcher.register_hook_with_name self name hook false w
  = (Ok hook, store_hook self name hook w).
Proof.
  intros Hc. unfold HookDispatcher.register_hook_with_name; simpl.
  by erewrite bind_Ok by (by apply validate_conforms).
Qed.

Lemma register_rejected (w : World) (self : ref) (name : string) (hook : Callable) (e : Exn) :
  HookDispatcher._validate_hook name hook w = (Raise e, w) →
  HookDispatcher.register_hook_with_name self name hook false w = (Raise e, w).
Proof.
  intros E. unfold HookDispatcher.register_hook_with_name; simpl.
  by erewrite bind_Raise by exact E.
Qed.

Lemma register_Ok_inv (w w' : World) (self : ref) (name : string) (hook r : Callable) (sv : bool) :
  HookDispatcher.register_hook_with_name self name hook sv w = (Ok r, w') →
  r = hook ∧ w' = store_hook self name hook w.
Proof.
  destruct sv.
  - rewrite register_skipping_validation. by intros [= <- <-].
  - destruct (validate_cases w name hook) as [[Hc _]|[msg E]].
    + rewrite register_conforming by done. by intros [= <- <-].
    + by rewrite (register_rejected _ _ _ _ _ E).
Qed.

(** ** The imported module *)

Lemma module_body_result :
  module_body empty_world = (Ok GLOBAL_HOOK_DISPATCHER, imported).
Proof. vm_compute. reflexivity. Qed.

Lemma imported_specs (name : string) :
  name ∈ map (fun p => "before_generate_" ++ p) declared_places →
  _specs imported !! name = Some ["strategy"; "context"].
Proof.
  intros H. simpl in H.
  repeat (apply elem_of_cons in H as [-> | H]; [by vm_compute|]).
  by apply elem_of_nil in H.
Qed.

Lemma imported_global_empty : _hooks imported GLOBAL_HOOK_DISPATCHER = ∅.
Proof. by vm_compute. Qed.

(** ** The decorator of [apply] *)

Lemma with_dispatcher_attached (func : Callable) (w : World) :
  fn_attrs (with_dispatcher func w).2 !! obj_id func
  = Some (with_dispatcher func w).1.
Proof.
  unfold with_dispatcher. destruct (fn_attrs w !! obj_id func) eqn:E; simpl.
  - done.
  - by rewrite lookup_insert_eq.
Qed.

Lemma with_dispatcher_hooks (func : Callable) (w : World) (l : ref) :
  _hooks (with_dispatcher func w).2 l = _hooks w l.
Proof.
  unfold with_dispatcher. destruct (fn_attrs w !! obj_id func) eqn:E; simpl.
  - done.
  - unfold _hooks; simpl.
    destruct (decide (l = fresh (dom (heap w)))) as [->|Hne].
    + rewrite lookup_insert_eq.
      by rewrite (not_elem_of_dom_1 (heap w) _ (is_fresh (dom (heap w)))).
    + by rewrite lookup_insert_ne.
Qed.

Lemma with_dispatcher_specs (func : Callable) (w : World) :
  _specs (with_dispatcher func w).2 = _specs w.
Proof. unfold with_dispatcher. by destruct (fn_attrs w !! obj_id func). Qed.

Lemma with_dispatcher_emitted (func : Callable) (w : World) :
  emitted (with_dispatcher func w).2 = emitted w.
Proof. unfold with_dispatcher. by destruct (fn_attrs w !! obj_id func). Qed.

Lemma with_dispatcher_other_attrs (func g : Callable) (w : World) :
  obj_id g ≠ obj_id func →
  fn_attrs (with_dispatcher func w).2 !! obj_id g = fn_attrs w !! obj_id g.
Proof.
  intros Hne. unfold with_dispatcher.
  destruct (fn_attrs w !! obj_id func); simpl; [done|].
  by rewrite lookup_insert_ne.
Qed.

Lemma with_dispatcher_reuses (func : Callable) (w : World) (d : ref) :
  fn_attrs w !! obj_id func = Some d → with_dispatcher func w = (d, w).
Proof. intros E. unfold with_dispatcher. by rewrite E. Qed.

Lemma with_dispatcher_creates (func : Callable) (w : World) :
  fn_attrs w !! obj_id func = None →
  heap w !! (with_dispatcher func w).1 = None.
Proof.
  intros E. unfold with_dispatcher. rewrite E; simpl.
  apply not_elem_of_dom, is_fresh.
Qed.

Lemma conforms_same_specs (w w' : World) (name : string) (hook : Callable) :
  _specs w' = _specs w → conforms w name hook → conforms w' name hook.
Proof. intros E (spec & Hs & Hl). exists spec. by rewrite E. Qed.

Lemma apply_unfold (w : World) (self : ref) (name : string) (hook func : Callable) :
  HookDispatcher.apply self name hook func w
  = match HookDispatcher.register_hook_with_name
            (with_dispatcher func w).1 name hook false (with_dispatcher func w).2 with
    | (Ok _, w') => (Ok func, w')
    | (Raise e, w') => (Raise e, w')
    end.
Proof.
  unfold HookDispatcher.apply, with_dispatcher, get_attr.
  unfold mbind, M_bind, bind; simpl.
  destruct (fn_attrs w !! obj_id func); simpl;
    by destruct (HookDispatcher.register_hook_with_name _ _ _ _ _) as [[?|?] ?].
Qed.

Lemma apply_conforming (w : World) (self : ref) (name : string) (hook func : Callable) :
  conforms w name hook →
  HookDispatcher.apply self name hook func w
  = (Ok func,
     store_hook (with_dispatcher func w).1 name hook (with_dispatcher func w).2).
Proof.
  intros Hc. rewrite apply_unfold, register_conforming; [done|].
  eapply conforms_same_specs; [apply with_dispatcher_specs | done].
Qed.

(** ** Dispatching to a registered hook *)

Lemma dispatch_registered
    (w : World) (self : ref) (name : string) (hook : Callable)
    (args : list Value) (kwargs : list (string * Value)) :
  _hooks w self !! name = Some hook →
  HookDispatcher.dispatch self name args kwargs w
  = (match (body hook args kwargs (view w)).1 with
     | Returned v => Ok v
     | Raised e => Raise (Propagated e)
     end,
     run_writes (body hook args kwargs (view w)).2 w).
Proof.
  intros E. unfold HookDispatcher.dispatch. rewrite E.
  by destruct (body hook args kwargs (view w)) as [[v|e] writes].
Qed.

(** * Properties of the specification *)

(** ** Dispatch *)

(** C1 (as amended). On a dispatcher with no hook under [name], [dispatch]
    raises nothing, returns [None] and changes nothing. When a hook is
    registered under [name] and returns a value, [dispatch] returns that
    value; this result is the result without a hook exactly when the hook
    returns [None] itself: a hook that returns [None] cannot be told from
    no hook, every other returned value can. *)
Theorem dispatch_without_hook
    (w : World) (self : ref) (name : string)
    (args : list Value) (kwargs : list (string * Value)) :
  _hooks w self !! name = None →
  HookDispatcher.dispatch self name args kwargs w = (Ok VNone, w)
  ∧ ∀ (w' : World) (hook : Callable) (v : Value),
      _hooks w' self !! name = Some hook →
      (body hook args kwargs (view w')).1 = Returned v →
      (HookDispatcher.dispatch self name args kwargs w').1 = Ok v
      ∧ ((HookDispatcher.dispatch self name args kwargs w').1
         = (HookDispatcher.dispatch self name args kwargs w).1
         ↔ v = VNone).
Proof.
  intros Hnone.
  assert (HookDispatcher.dispatch self name args kwargs w = (Ok VNone, w)) as E0.
  { unfold HookDispatcher.dispatch. by rewrite Hnone. }
  split; [exact E0|].
  intros w' hook v Hsome Hbody.
  assert ((HookDispatcher.dispatch self name args kwargs w').1 = Ok v) as E1.
  { rewrite (dispatch_registered _ _ _ _ _ _ Hsome); simpl. by rewrite Hbody. }
  split; [exact E1|].
  rewrite E0, E1; simpl. split; [by intros [= ->] | by intros ->].
Qed.

Lemma dispatch_without_hook_witness :
  dispatch "before_generate_query" [VObj 7; VObj 8] [] imported
  = (Ok VNone, imported)
  ∧ (HookDispatcher.dispatch GLOBAL_HOOK_DISPATCHER "before_generate_query"
       [VObj 7; VObj 8] []
       (store_hook GLOBAL_HOOK_DISPATCHER "before_generate_query" replacement imported)).1
    = Ok (VObj 1001)
  ∧ (HookDispatcher.dispatch GLOBAL_HOOK_DISPATCHER "before_generate_query"
       [VObj 7; VObj 8] []
       (store_hook GLOBAL_HOOK_DISPATCHER "before_generate_query"
          hook_returning_none imported)).1
    = (HookDispatcher.dispatch GLOBAL_HOOK_DISPATCHER "before_generate_query"
         [VObj 7; VObj 8] [] imported).1.
Proof.
  pose proof (dispatch_without_hook imported GLOBAL_HOOK_DISPATCHER
                "before_generate_query" [VObj 7; VObj 8] []) as H.
  destruct H as [H0 H1]; [vm_compute; reflexivity|].
  split; [exact H0|]. split.
  - destruct (H1 (store_hook GLOBAL_HOOK_DISPATCHER "before_generate_query"
                    replacement imported) replacement (VObj 1001)) as [E _].
    + vm_compute; reflexivity.
    + reflexivity.
    + exact E.
  - destruct (H1 (store_hook GLOBAL_HOOK_DISPATCHER "before_generate_query"
                    hook_returning_none imported) hook_returning_none VNone)
      as [_ [_ E]].
    + vm_compute; reflexivity.
    + vm_compute; reflexivity.
    + apply E. reflexivity.
Defined.

(** C1, as stated, fails: a hook that conforms to its spec may return
    [None] (here its body is [pass]), and then [dispatch] returns the same
    value with the hook registered as without it. *)
Lemma dispatch_sentinel_is_a_hook_result :
  let args := [VObj 7; VObj 8] in
  let w1 := (HookDispatcher.register GLOBAL_HOOK_DISPATCHER
               (ACallable hook_returning_none) imported).2 in
  (HookDispatcher.register GLOBAL_HOOK_DISPATCHER
     (ACallable hook_returning_none) imported).1
  = Ok (HookDispatcher.Hook hook_returning_none)
  ∧ HookDispatcher.get_hook GLOBAL_HOOK_DISPATCHER "before_generate_query" w1
    = (Ok (Some hook_returning_none), w1)
  ∧ (body hook_returning_none args [] (view w1)).1 = Returned VNone
  ∧ HookDispatcher.get_hook GLOBAL_HOOK_DISPATCHER "before_generate_query" imported
    = (Ok None, imported)
  ∧ (dispatch "before_generate_query" args [] w1).1 = Ok VNone
  ∧ (dispatch "before_generate_query" args [] imported).1 = Ok VNone.
Proof. repeat split; vm_compute; reflexivity. Qed.

(** ** Registration with validation *)

(** C2. Under a declared name whose spec has [A] parameters, a callable
    with [A] parameters, whatever their names, is registered and returned;
    a callable with another number of parameters is rejected with a
    [TypeError] whose message gives [A] and the callable's own count. *)
Theorem registration_checks_parameter_count
    (w : World) (self : ref) (name : string) (spec : list string)
    (hook : Callable) :
  _specs w !! name = Some spec →
  (length (parameters hook) = length spec →
     HookDispatcher.register_hook_with_name self name hook false w
     = (Ok hook, store_hook self name hook w)
     ∧ _hooks (store_hook self name hook w) self !! name = Some hook)
  ∧ (length (parameters hook) ≠ length spec →
     HookDispatcher.register_hook_with_name self name hook false w
     = (Raise (TypeError
          ("Hook '" ++ name ++ "' takes " ++ pretty (length spec)
           ++ " arguments but " ++ pretty (length (parameters hook))
           ++ " is defined")), w)).
Proof.
  intros Hspec. split.
  - intros Hlen. split.
    + apply register_conforming. by exists spec.
    + rewrite hooks_store_hook_eq. apply lookup_insert_eq.
  - intros Hlen. apply register_rejected.
    by apply validate_mismatch.
Qed.

Lemma registration_checks_parameter_count_witness :
  HookDispatcher.register_hook_with_name GLOBAL_HOOK_DISPATCHER
    "before_generate_query" replacement false imported
  = (Ok replacement,
     store_hook GLOBAL_HOOK_DISPATCHER "before_generate_query" replacement imported)
  ∧ HookDispatcher.register_hook_with_name GLOBAL_HOOK_DISPATCHER
      "before_generate_query" hook_with_three_parameters false imported
    = (Raise (TypeError
         "Hook 'before_generate_query' takes 2 arguments but 3 is defined"),
       imported).
Proof.
  split.
  - apply (registration_checks_parameter_count imported GLOBAL_HOOK_DISPATCHER
             "before_generate_query" ["strategy"; "context"] replacement).
    + vm_compute; reflexivity.
    + reflexivity.
  - apply (registration_checks_parameter_count imported GLOBAL_HOOK_DISPATCHER
             "before_generate_query" ["strategy"; "context"]
             hook_with_three_parameters).
    + vm_compute; reflexivity.
    + simpl; lia.
Defined.

(** C3. Under a name for which no spec is declared, registration with
    validation is rejected with the [TypeError] for an unknown hook name,
    for every callable: the outcome is the same whatever the callable's
    parameters, through [register_hook_with_name] and through both forms
    of [register]. *)
Theorem registration_under_unknown_name
    (w : World) (self : ref) (name : string) (hook : Callable) :
  _specs w !! name = None →
  HookDispatcher.register_hook_with_name self name hook false w
  = (Raise (TypeError ("There is no hook with name '" ++ name ++ "'")), w)
  ∧ (∀ other : Callable,
       (HookDispatcher.register_hook_with_name self name other false w).1
       = (HookDispatcher.register_hook_with_name self name hook false w).1)
  ∧ (∀ dec,
       HookDispatcher.register self (AStr name) w
       = (Ok (HookDispatcher.Decorator dec), w) →
       dec hook w
       = (Raise (TypeError ("There is no hook with name '" ++ name ++ "'")), w))
  ∧ (__name__ hook = name →
     HookDispatcher.register self (ACallable hook) w
     = (Raise (TypeError ("There is no hook with name '" ++ name ++ "'")), w)).
Proof.
  intros Hspec.
  assert (∀ h, HookDispatcher.register_hook_with_name self name h false w
               = (Raise (TypeError (unknown_hook_message name)), w)) as E.
  { intros h. apply register_rejected. by apply validate_unknown. }
  split; [apply E|]. split; [|split].
  - intros other. by rewrite !E.
  - intros dec [= <-]. apply E.
  - intros <-. unfold HookDispatcher.register.
    by erewrite bind_Raise by apply E.
Qed.

Lemma registration_under_unknown_name_witness :
  HookDispatcher.register_hook_with_name GLOBAL_HOOK_DISPATCHER
    "hook" hook_without_parameters false imported
  = (Raise (TypeError "There is no hook with name 'hook'"), imported)
  ∧ HookDispatcher.register GLOBAL_HOOK_DISPATCHER
      (ACallable hook_without_parameters) imported
    = (Raise (TypeError "There is no hook with name 'hook'"), imported).
Proof.
  pose proof (registration_under_unknown_name imported GLOBAL_HOOK_DISPATCHER
                "hook" hook_without_parameters) as H.
  destruct H as (H1 & _ & _ & H4); [vm_compute; reflexivity|].
  split; [exact H1 | apply H4; reflexivity].
Defined.

(** C10. When registration with validation fails, the world is left as
    it was: the failure is one of the two validation errors, nothing was
    stored, and [get_hook] and [dispatch] on every dispatcher and for
    every name answer as before the attempt. *)
Theorem failed_registration_changes_nothing
    (w w' : World) (self : ref) (name : string) (hook : Callable) (e : Exn) :
  HookDispatcher.register_hook_with_name self name hook false w = (Raise e, w') →
  w' = w
  ∧ ¬ conforms w name hook
  ∧ (∀ (d : ref) (n : string),
       _hooks w' d !! n = _hooks w d !! n
       ∧ (HookDispatcher.get_hook d n w').1 = (HookDispatcher.get_hook d n w).1
       ∧ ∀ args kwargs,
           (HookDispatcher.dispatch d n args kwargs w').1
           = (HookDispatcher.dispatch d n args kwargs w).1).
Proof.
  intros E.
  destruct (validate_cases w name hook) as [[Hc _]|[msg Hv]].
  - rewrite register_conforming in E by done. discriminate.
  - rewrite (register_rejected _ _ _ _ _ Hv) in E.
    injection E as <- <-. split; [done|]. split.
    + intros Hc. by rewrite (validate_conforms _ _ _ Hc) in Hv.
    + done.
Qed.

Lemma failed_registration_changes_nothing_witness :
  (HookDispatcher.register_hook_with_name GLOBAL_HOOK_DISPATCHER
     "before_generate_query" hook_with_three_parameters false imported).2
  = imported.
Proof.
  apply (failed_registration_changes_nothing imported _ GLOBAL_HOOK_DISPATCHER
           "before_generate_query" hook_with_three_parameters
           (TypeError "Hook 'before_generate_query' takes 2 arguments but 3 is defined")).
  vm_compute; reflexivity.
Defined.

(** ** Storing *)

(** C4. A registration that succeeds returns the callable it was given
    and stores it under the name. After [h1] and then [h2] are registered
    under one name on one dispatcher, [get_hook] returns [h2], the world is
    the one that registering [h2] alone gives, and [h1] can be retrieved
    only where it is [h2] or was already stored under another name. *)
Theorem second_registration_replaces_first
    (w w1 w2 : World) (self : ref) (name : string)
    (h1 h2 r1 r2 : Callable) (skip1 skip2 : bool) :
  HookDispatcher.register_hook_with_name self name h1 skip1 w = (Ok r1, w1) →
  HookDispatcher.register_hook_with_name self name h2 skip2 w1 = (Ok r2, w2) →
  r1 = h1 ∧ r2 = h2
  ∧ HookDispatcher.get_hook self name w1 = (Ok (Some h1), w1)
  ∧ HookDispatcher.get_hook self name w2 = (Ok (Some h2), w2)
  ∧ w2 = store_hook self name h2 w
  ∧ _hooks w2 self = <[name := h2]> (_hooks w self)
  ∧ ∀ n : string,
      (HookDispatcher.get_hook self n w2).1 = Ok (Some h1) →
      h1 = h2 ∨ (n ≠ name ∧ (HookDispatcher.get_hook self n w).1 = Ok (Some h1)).
Proof.
  intros E1 E2.
  apply register_Ok_inv in E1 as [-> ->].
  apply register_Ok_inv in E2 as [-> ->].
  rewrite store_hook_twice.
  unfold HookDispatcher.get_hook; simpl.
  rewrite !hooks_store_hook_eq, !lookup_insert_eq.
  repeat split; try done.
  intros n [= Hn].
  destruct (decide (n = name)) as [->|Hne].
  - rewrite lookup_insert_eq in Hn. left. congruence.
  - rewrite lookup_insert_ne in Hn by done. right. by rewrite Hn.
Qed.

Lemma second_registration_replaces_first_witness :
  HookDispatcher.get_hook GLOBAL_HOOK_DISPATCHER "before_generate_query"
    (store_hook GLOBAL_HOOK_DISPATCHER "before_generate_query" another_replacement
       (store_hook GLOBAL_HOOK_DISPATCHER "before_generate_query" replacement imported))
  = (Ok (Some another_replacement),
     store_hook GLOBAL_HOOK_DISPATCHER "before_generate_query" another_replacement
       (store_hook GLOBAL_HOOK_DISPATCHER "before_generate_query" replacement imported)).
Proof.
  eapply (second_registration_replaces_first imported _ _ GLOBAL_HOOK_DISPATCHER
            "before_generate_query" replacement another_replacement
            replacement another_replacement false false).
  - vm_compute; reflexivity.
  - vm_compute; reflexivity.
Defined.

(** ** The two forms of [register] *)

(** C9. [register] decides by one test on its argument. Given a string
    it registers nothing and returns a decorator, which registers the
    callable it is later given under that string; given anything else it
    registers that callable at once under the callable's [__name__]. In
    both cases, a conforming callable is then what [get_hook] returns
    under the name. *)
Theorem register_has_two_forms (w : World) (self : ref) :
  (∀ hook_name : string,
     ∃ dec,
       HookDispatcher.register self (AStr hook_name) w
       = (Ok (HookDispatcher.Decorator dec), w)
       ∧ (∀ func w0,
            dec func w0
            = HookDispatcher.register_hook_with_name self hook_name func false w0)
       ∧ (∀ func w0,
            conforms w0 hook_name func →
            ∃ w1, dec func w0 = (Ok func, w1)
                  ∧ _hooks w1 self !! hook_name = Some func))
  ∧ (∀ hook : Callable,
       (HookDispatcher.register self (ACallable hook) w).2
       = (HookDispatcher.register_hook_with_name self (__name__ hook) hook false w).2
       ∧ (∀ e,
            (HookDispatcher.register_hook_with_name
               self (__name__ hook) hook false w).1 = Raise e →
            (HookDispatcher.register self (ACallable hook) w).1 = Raise e)
       ∧ (conforms w (__name__ hook) hook →
          ∃ w1, HookDispatcher.register self (ACallable hook) w
                = (Ok (HookDispatcher.Hook hook), w1)
                ∧ _hooks w1 self !! __name__ hook = Some hook)).
Proof.
  split.
  - intros hook_name. eexists. split; [reflexivity|]. split; [done|].
    intros func w0 Hc. eexists. split; [by apply register_conforming|].
    rewrite hooks_store_hook_eq. apply lookup_insert_eq.
  - intros hook. unfold HookDispatcher.register.
    destruct (HookDispatcher.register_hook_with_name self (__name__ hook) hook false w)
      as [[r|e0] w1] eqn:E.
    + rewrite (bind_Ok _ _ _ _ _ E).
      apply register_Ok_inv in E as [-> ->].
      split; [done|]. split; [intros e; simpl; discriminate|].
      intros _. eexists. split; [reflexivity|].
      rewrite hooks_store_hook_eq. apply lookup_insert_eq.
    + rewrite (bind_Raise _ _ _ _ _ E).
      split; [done|]. split; [by intros e [= ->]|].
      intros Hc. by rewrite register_conforming in E.
Qed.

Lemma register_has_two_forms_witness :
  (∃ dec,
     HookDispatcher.register GLOBAL_HOOK_DISPATCHER
       (AStr "before_generate_query") imported
     = (Ok (HookDispatcher.Decorator dec), imported)
     ∧ ∃ w1, dec replacement imported = (Ok replacement, w1)
             ∧ _hooks w1 GLOBAL_HOOK_DISPATCHER !! "before_generate_query"
               = Some replacement)
  ∧ ∃ w1, HookDispatcher.register GLOBAL_HOOK_DISPATCHER
            (ACallable hook_returning_none) imported
          = (Ok (HookDispatcher.Hook hook_returning_none), w1)
          ∧ _hooks w1 GLOBAL_HOOK_DISPATCHER !! "before_generate_query"
            = Some hook_returning_none.
Proof.
  pose proof (register_has_two_forms imported GLOBAL_HOOK_DISPATCHER) as [H1 H2].
  split.
  - destruct (H1 "before_generate_query") as (dec & E & _ & Hd).
    exists dec. split; [exact E|]. apply Hd.
    exists ["strategy"; "context"]. split; vm_compute; reflexivity.
  - destruct (H2 hook_returning_none) as (_ & _ & Hc). apply Hc.
    exists ["strategy"; "context"]. split; vm_compute; reflexivity.
Defined.

(** ** Hooks of one test function *)

(** C7. Two [apply] decorators for one name stacked on a test function,
    both with conforming hooks: the function gets one attached dispatcher,
    which holds under the name the hook of the topmost decorator, the one
    applied last, and not the other hook; the world is the one that the
    topmost decorator alone gives. As the statement holds for every pair
    of hooks, swapping the two decorators swaps the winner. *)
Theorem stacked_apply_topmost_wins
    (w : World) (s_top s_bottom : ref) (name : string)
    (h_top h_bottom func : Callable) :
  conforms w name h_top →
  conforms w name h_bottom →
  ∃ (w' : World) (d : ref),
    decorated [HookDispatcher.apply s_top name h_top;
               HookDispatcher.apply s_bottom name h_bottom] func w
    = (Ok func, w')
    ∧ fn_attrs w' !! obj_id func = Some d
    ∧ HookDispatcher.get_hook d name w' = (Ok (Some h_top), w')
    ∧ (h_bottom ≠ h_top →
       (HookDispatcher.get_hook d name w').1 ≠ Ok (Some h_bottom))
    ∧ _hooks w' d = <[name := h_top]> (_hooks w d)
    ∧ w' = (HookDispatcher.apply s_top name h_top func w).2.
Proof.
  intros Htop Hbottom.
  set (d := (with_dispatcher func w).1).
  set (w0 := (with_dispatcher func w).2).
  set (w1 := store_hook d name h_bottom w0).
  assert (HookDispatcher.apply s_bottom name h_bottom func w = (Ok func, w1)) as E1
    by (by apply apply_conforming).
  assert (fn_attrs w1 !! obj_id func = Some d) as Hd
    by apply with_dispatcher_attached.
  assert (conforms w1 name h_top) as Htop1.
  { eapply conforms_same_specs; [|exact Htop]. apply with_dispatcher_specs. }
  assert (HookDispatcher.apply s_top name h_top func w1
          = (Ok func, store_hook d name h_top w0)) as E2.
  { rewrite (apply_conforming _ _ _ _ _ Htop1).
    rewrite (with_dispatcher_reuses _ _ _ Hd); simpl.
    unfold w1. by rewrite store_hook_twice. }
  exists (store_hook d name h_top w0), d.
  assert (_hooks (store_hook d name h_top w0) d !! name = Some h_top) as Hget.
  { rewrite hooks_store_hook_eq. apply lookup_insert_eq. }
  split; [|split; [|split; [|split; [|split]]]].
  - simpl. rewrite (bind_Ok _ _ w w1 func); [exact E2|].
    by rewrite (bind_Ok _ _ w w func).
  - apply with_dispatcher_attached.
  - unfold HookDispatcher.get_hook. by rewrite Hget.
  - intros Hne. unfold HookDispatcher.get_hook; simpl. rewrite Hget.
    congruence.
  - rewrite hooks_store_hook_eq. unfold w0. by rewrite with_dispatcher_hooks.
  - by rewrite (apply_conforming _ _ _ _ _ Htop).
Qed.

Lemma stacked_apply_topmost_wins_witness :
  ∃ (w' : World) (d : ref),
    decorated
      [HookDispatcher.apply GLOBAL_HOOK_DISPATCHER "before_generate_query"
         another_replacement;
       HookDispatcher.apply GLOBAL_HOOK_DISPATCHER "before_generate_query"
         replacement] test_c imported
    = (Ok test_c, w')
    ∧ fn_attrs w' !! obj_id test_c = Some d
    ∧ HookDispatcher.get_hook d "before_generate_query" w'
      = (Ok (Some another_replacement), w').
Proof.
  destruct (stacked_apply_topmost_wins imported GLOBAL_HOOK_DISPATCHER
              GLOBAL_HOOK_DISPATCHER "before_generate_query"
              another_replacement replacement test_c)
    as (w' & d & E & Hd & Hg & _).
  - exists ["strategy"; "context"]. split; vm_compute; reflexivity.
  - exists ["strategy"; "context"]. split; vm_compute; reflexivity.
  - exists w', d. split; [exact E|]. split; [exact Hd | exact Hg].
Defined.

(** C8 (as amended). With a conforming hook, the decorator that [apply]
    returns gives the test function an attached dispatcher, the one it
    already has or else a new one that was not in the store; registers the
    hook under the name on that dispatcher; and returns the test function
    it was given, on whatever dispatcher [apply] was called. Every
    dispatcher other than the attached one keeps its hooks. So the
    dispatcher on which [apply] was called keeps its hooks unless it is the
    one attached to the test function, in which case it gains the hook;
    it is not the attached one when it is a live dispatcher and the test
    function did not have it attached before. *)
Theorem apply_registers_on_attached_dispatcher
    (w : World) (self : ref) (name : string) (hook func : Callable) :
  conforms w name hook →
  ∃ (w' : World) (d : ref),
    HookDispatcher.apply self name hook func w = (Ok func, w')
    ∧ fn_attrs w' !! obj_id func = Some d
    ∧ match fn_attrs w !! obj_id func with
      | Some d0 => d = d0
      | None => heap w !! d = None
      end
    ∧ _hooks w' d = <[name := hook]> (_hooks w d)
    ∧ (∀ l : ref, l ≠ d → _hooks w' l = _hooks w l)
    ∧ (self ≠ d → _hooks w' self = _hooks w self)
    ∧ (self = d → _hooks w' self = <[name := hook]> (_hooks w self))
    ∧ (is_Some (heap w !! self) →
       fn_attrs w !! obj_id func ≠ Some self →
       self ≠ d ∧ _hooks w' self = _hooks w self)
    ∧ (∀ g : Callable,
         obj_id g ≠ obj_id func →
         fn_attrs w' !! obj_id g = fn_attrs w !! obj_id g)
    ∧ _specs w' = _specs w
    ∧ emitted w' = emitted w.
Proof.
  intros Hc.
  set (d := (with_dispatcher func w).1).
  set (w0 := (with_dispatcher func w).2).
  exists (store_hook d name hook w0), d.
  assert (match fn_attrs w !! obj_id func with
          | Some d0 => d = d0
          | None => heap w !! d = None
          end) as Hd.
  { destruct (fn_attrs w !! obj_id func) as [d0|] eqn:E.
    - unfold d. by rewrite (with_dispatcher_reuses _ _ _ E).
    - by apply with_dispatcher_creates. }
  assert (∀ l : ref, l ≠ d → _hooks (store_hook d name hook w0) l = _hooks w l) as Hframe.
  { intros l Hl. rewrite hooks_store_hook_ne by done. apply with_dispatcher_hooks. }
  assert (_hooks (store_hook d name hook w0) d = <[name := hook]> (_hooks w d)) as Hnew.
  { rewrite hooks_store_hook_eq. unfold w0. by rewrite with_dispatcher_hooks. }
  split; [by apply apply_conforming|].
  split; [apply with_dispatcher_attached|].
  split; [exact Hd|].
  split; [exact Hnew|].
  split; [exact Hframe|].
  split; [by apply Hframe|].
  split; [by intros ->|].
  split.
  { intros [hs Hlive] Halias.
    assert (self ≠ d) as Hself.
    { intros ->. destruct (fn_attrs w !! obj_id func) as [d0|].
      - by subst d0.
      - by rewrite Hlive in Hd. }
    split; [exact Hself | by apply Hframe]. }
  split; [intros g Hg; by apply with_dispatcher_other_attrs|].
  split; [apply with_dispatcher_specs | apply with_dispatcher_emitted].
Qed.

Lemma apply_registers_on_attached_dispatcher_witness :
  ∃ (w' : World) (d : ref),
    HookDispatcher.apply GLOBAL_HOOK_DISPATCHER "before_generate_query"
      replacement test_c imported = (Ok test_c, w')
    ∧ fn_attrs w' !! obj_id test_c = Some d
    ∧ _hooks w' d = <[ "before_generate_query" := replacement ]> (_hooks imported d)
    ∧ _hooks w' GLOBAL_HOOK_DISPATCHER = _hooks imported GLOBAL_HOOK_DISPATCHER.
Proof.
  destruct (apply_registers_on_attached_dispatcher imported GLOBAL_HOOK_DISPATCHER
              "before_generate_query" replacement test_c)
    as (w' & d & E & Hd & _ & Hh & _ & _ & _ & Hs & _).
  - exists ["strategy"; "context"]. split; vm_compute; reflexivity.
  - exists w', d. split; [exact E|]. split; [exact Hd|]. split; [exact Hh|].
    apply Hs.
    + exists ∅. vm_compute; reflexivity.
    + vm_compute. discriminate.
Defined.

(** C8, as stated, fails when [apply] is called on the dispatcher that
    is attached to the test function: the decorator registers on that very
    dispatcher. Here [test_c] first gets its dispatcher from an [apply] on
    the global one; an [apply] on that attached dispatcher then adds a hook
    to the mapping of the dispatcher it was called on. *)
Lemma apply_on_attached_dispatcher_changes_it :
  let w1 := (HookDispatcher.apply GLOBAL_HOOK_DISPATCHER "before_generate_query"
               replacement test_c imported).2 in
  let attached : ref := 2%positive in
  let w2 := (HookDispatcher.apply attached "before_generate_headers"
               third_replacement test_c w1).2 in
  fn_attrs w1 !! obj_id test_c = Some attached
  ∧ (HookDispatcher.apply attached "before_generate_headers"
       third_replacement test_c w1).1 = Ok test_c
  ∧ _hooks w1 attached !! "before_generate_headers" = None
  ∧ _hooks w2 attached !! "before_generate_headers" = Some third_replacement
  ∧ _hooks w2 attached ≠ _hooks w1 attached.
Proof.
  repeat split; try (vm_compute; reflexivity).
  intros E.
  assert (_hooks (HookDispatcher.apply 2%positive "before_generate_headers"
                    third_replacement test_c
                    (HookDispatcher.apply GLOBAL_HOOK_DISPATCHER
                       "before_generate_query" replacement test_c imported).2).2
            2%positive !! "before_generate_headers"
          = _hooks (HookDispatcher.apply GLOBAL_HOOK_DISPATCHER
                      "before_generate_query" replacement test_c imported).2
              2%positive !! "before_generate_headers") as E'
    by (by rewrite E).
  vm_compute in E'. discriminate.
Qed.

(** ** The old two-argument [register] *)

Lemma legacy_warnings_run (hook : Callable) (w : World) :
  (warn DeprecationWarning two_arguments_message;; warn_deprecated_hook hook) w
  = (Ok tt, warned (legacy_warnings hook) w).
Proof.
  unfold mbind, M_bind, bind, warn, warn_deprecated_hook, legacy_warnings, warned.
  simpl. destruct (bool_decide _); simpl.
  - reflexivity.
  - unfold warn; simpl. by rewrite <- app_assoc.
Qed.

Lemma legacy_register_unfold
    (members : list string) (place : string) (hook : Callable) (w : World) :
  register members [AStr place; ACallable hook] w
  = if bool_decide (place ∈ members) then
      (Ok (HookDispatcher.Hook hook),
       store_hook GLOBAL_HOOK_DISPATCHER ("before_generate_" ++ place) hook
         (warned (legacy_warnings hook) w))
    else (Raise (KeyError (AStr place)), warned (legacy_warnings hook) w).
Proof.
  pose proof (legacy_warnings_run hook w) as E.
  unfold register, mbind, M_bind, bind in *.
  destruct (warn DeprecationWarning two_arguments_message w) as [[[]|e] w1];
    [|discriminate].
  destruct (warn_deprecated_hook hook w1) as [[[]|e] w2]; [|discriminate].
  injection E as ->.
  by destruct (bool_decide (place ∈ members)).
Qed.

(** C5 (as amended). The two-argument form with a recognized place
    registers the hook on the global dispatcher under
    ["before_generate_" ++ place] without validation, whatever the hook's
    parameter count and whether or not a spec is declared, and returns the
    hook. It emits the deprecation warning of the two-argument form and,
    when the hook has no parameter named [context], a second deprecation
    warning after it: two warnings for such a hook, one otherwise. *)
Theorem legacy_registration_recognized
    (members : list string) (w : World) (place : string) (hook : Callable) :
  place ∈ members →
  ∃ w' : World,
    register members [AStr place; ACallable hook] w
    = (Ok (HookDispatcher.Hook hook), w')
    ∧ HookDispatcher.get_hook GLOBAL_HOOK_DISPATCHER
        ("before_generate_" ++ place) w' = (Ok (Some hook), w')
    ∧ _hooks w' GLOBAL_HOOK_DISPATCHER
      = <["before_generate_" ++ place := hook]> (_hooks w GLOBAL_HOOK_DISPATCHER)
    ∧ emitted w'
      = (emitted w ++ two_arguments_warning
           :: (if bool_decide ("context" ∈ parameters hook) then []
               else [no_context_warning]))%list
    ∧ length (emitted w')
      = (length (emitted w)
         + (if bool_decide ("context" ∈ parameters hook) then 1 else 2))%nat.
Proof.
  intros Hin. eexists. rewrite legacy_register_unfold.
  rewrite (bool_decide_eq_true_2 _ Hin).
  split; [reflexivity|].
  assert (_hooks (store_hook GLOBAL_HOOK_DISPATCHER ("before_generate_" ++ place)
                    hook (warned (legacy_warnings hook) w)) GLOBAL_HOOK_DISPATCHER
          = <["before_generate_" ++ place := hook]> (_hooks w GLOBAL_HOOK_DISPATCHER))
    as Hh by (by rewrite hooks_store_hook_eq).
  split; [|split; [exact Hh|split]].
  - unfold HookDispatcher.get_hook. by rewrite Hh, lookup_insert_eq.
  - reflexivity.
  - simpl. rewrite length_app. unfold legacy_warnings.
    by destruct (bool_decide _).
Qed.

Lemma legacy_registration_recognized_witness :
  ∃ w' : World,
    register declared_places [AStr "query"; ACallable legacy_hook] imported
    = (Ok (HookDispatcher.Hook legacy_hook), w')
    ∧ HookDispatcher.get_hook GLOBAL_HOOK_DISPATCHER "before_generate_query" w'
      = (Ok (Some legacy_hook), w')
    ∧ emitted w' = [two_arguments_warning; no_context_warning].
Proof.
  destruct (legacy_registration_recognized declared_places imported "query" legacy_hook)
    as (w' & E & Hg & _ & Hw & _).
  - vm_compute. do 3 right. left.
  - exists w'. split; [exact E|]. split; [exact Hg | exact Hw].
Defined.

(** C5, as stated, fails: a hook of the old calling convention has the
    single parameter [strategy], so it draws the warning about the missing
    [context] parameter on top of the warning about the two-argument form;
    validated registration would have rejected it. *)
Lemma legacy_registration_warns_twice :
  let result := register declared_places [AStr "query"; ACallable legacy_hook] imported in
  result.1 = Ok (HookDispatcher.Hook legacy_hook)
  ∧ _hooks result.2 GLOBAL_HOOK_DISPATCHER !! "before_generate_query" = Some legacy_hook
  ∧ emitted imported = []
  ∧ emitted result.2 = [two_arguments_warning; no_context_warning]
  ∧ length (emitted result.2) ≠ 1%nat
  ∧ (HookDispatcher.register_hook_with_name GLOBAL_HOOK_DISPATCHER
       "before_generate_query" legacy_hook false imported).1
    = Raise (TypeError
        "Hook 'before_generate_query' takes 2 arguments but 1 is defined").
Proof. repeat split; try (vm_compute; reflexivity). vm_compute. discriminate. Qed.

(** C6 (as amended). The two-argument form with a place outside the
    recognized ones fails with [KeyError] of that place; no dispatcher, no
    spec and no attachment changes. The warnings are emitted before the
    place is looked up: the world after the failure has the deprecation
    warning of the two-argument form and, when the hook has no parameter
    named [context], the second deprecation warning. *)
Theorem legacy_registration_unrecognized
    (members : list string) (w : World) (place : string) (hook : Callable) :
  place ∉ members →
  ∃ w' : World,
    register members [AStr place; ACallable hook] w
    = (Raise (KeyError (AStr place)), w')
    ∧ heap w' = heap w
    ∧ fn_attrs w' = fn_attrs w
    ∧ _specs w' = _specs w
    ∧ emitted w'
      = (emitted w ++ two_arguments_warning
           :: (if bool_decide ("context" ∈ parameters hook) then []
               else [no_context_warning]))%list.
Proof.
  intros Hin. eexists. rewrite legacy_register_unfold.
  rewrite (bool_decide_eq_false_2 _ Hin).
  by repeat split.
Qed.

Lemma legacy_registration_unrecognized_witness :
  ∃ w' : World,
    register declared_places [AStr "nowhere"; ACallable legacy_hook] imported
    = (Raise (KeyError (AStr "nowhere")), w')
    ∧ heap w' = heap imported
    ∧ emitted w' = (emitted imported ++ [two_arguments_warning; no_context_warning])%list.
Proof.
  destruct (legacy_registration_unrecognized declared_places imported "nowhere" legacy_hook)
    as (w' & E & Hh & _ & _ & Hw).
  - apply (bool_decide_unpack _). vm_compute. exact I.
  - exists w'. split; [exact E|]. split; [exact Hh | exact Hw].
Defined.

(** C6, as stated, fails: the place is checked after both calls of
    [warnings.warn], so the failed call has emitted warnings; with a hook
    that has a [context] parameter it still has emitted one. *)
Lemma unrecognized_location_still_warns :
  let result := register declared_places [AStr "nowhere"; ACallable legacy_hook] imported in
  let result' := register declared_places [AStr "nowhere"; ACallable replacement] imported in
  result.1 = Raise (KeyError (AStr "nowhere"))
  ∧ heap result.2 = heap imported
  ∧ emitted imported = []
  ∧ emitted result.2 = [two_arguments_warning; no_context_warning]
  ∧ result'.1 = Raise (KeyError (AStr "nowhere"))
  ∧ emitted result'.2 = [two_arguments_warning].
Proof. repeat split; vm_compute; reflexivity. Qed.


(** * Further properties of the code *)

(** ** Reading and resetting a dispatcher *)

(** X1. [unregister_all] empties the dispatcher it is called on: after
    it, [get_hook] finds nothing and [dispatch] returns [None] for every
    name. Other dispatchers, among them those attached to test functions,
    the declared specs, the attachments and the warnings stay as they
    were. *)
Theorem unregister_all_clears (w : World) (self : ref) :
  ∃ w' : World,
    HookDispatcher.unregister_all self w = (Ok tt, w')
    ∧ (∀ n : string, HookDispatcher.get_hook self n w' = (Ok None, w'))
    ∧ (∀ (n : string) args kwargs,
         HookDispatcher.dispatch self n args kwargs w' = (Ok VNone, w'))
    ∧ (∀ d : ref, d ≠ self → _hooks w' d = _hooks w d)
    ∧ _specs w' = _specs w
    ∧ fn_attrs w' = fn_attrs w
    ∧ emitted w' = emitted w.
Proof.
  eexists. split; [reflexivity|].
  assert (∀ n : string,
            _hooks {| _specs := _specs w; heap := <[self := ∅]> (heap w);
                      fn_attrs := fn_attrs w; emitted := emitted w |} self !! n
            = None) as Hempty.
  { intros n. unfold _hooks; simpl. by rewrite lookup_insert_eq. }
  split; [|split; [|split]].
  - intros n. unfold HookDispatcher.get_hook. by rewrite Hempty.
  - intros n args kwargs. unfold HookDispatcher.dispatch. by rewrite Hempty.
  - intros d Hd. unfold _hooks; simpl. by rewrite lookup_insert_ne.
  - done.
Qed.

(** X2. A hook that was registered is the one [dispatch] calls: after a
    successful registration under a name, with or without validation,
    [get_hook] returns the hook and [dispatch] under that name calls it
    with the given arguments in the store as it then is, returns what it
    returns or raises its own exception, and leaves the store as the
    writes of the hook's body leave it. *)
Theorem registered_hook_is_dispatched
    (w w' : World) (self : ref) (name : string) (hook r : Callable)
    (skip : bool) (args : list Value) (kwargs : list (string * Value)) :
  HookDispatcher.register_hook_with_name self name hook skip w = (Ok r, w') →
  HookDispatcher.get_hook self name w' = (Ok (Some hook), w')
  ∧ HookDispatcher.dispatch self name args kwargs w'
    = (match (body hook args kwargs (view w')).1 with
       | Returned v => Ok v
       | Raised e => Raise (Propagated e)
       end,
       run_writes (body hook args kwargs (view w')).2 w').
Proof.
  intros E. apply register_Ok_inv in E as [-> ->].
  assert (_hooks (store_hook self name hook w) self !! name = Some hook) as Hh
    by (by rewrite hooks_store_hook_eq, lookup_insert_eq).
  split.
  - unfold HookDispatcher.get_hook. by rewrite Hh.
  - by apply dispatch_registered.
Qed.

Lemma registered_hook_is_dispatched_witness :
  (HookDispatcher.dispatch GLOBAL_HOOK_DISPATCHER "before_generate_query"
     [VObj 7; VObj 8] []
     (store_hook GLOBAL_HOOK_DISPATCHER "before_generate_query" resetting_hook imported)).1
  = Ok (VObj 8)
  ∧ _hooks
      (HookDispatcher.dispatch GLOBAL_HOOK_DISPATCHER "before_generate_query"
         [VObj 7; VObj 8] []
         (store_hook GLOBAL_HOOK_DISPATCHER "before_generate_query"
            resetting_hook imported)).2
      GLOBAL_HOOK_DISPATCHER
    = ∅.
Proof.
  destruct (registered_hook_is_dispatched imported
              (store_hook GLOBAL_HOOK_DISPATCHER "before_generate_query"
                 resetting_hook imported)
              GLOBAL_HOOK_DISPATCHER
              "before_generate_query" resetting_hook resetting_hook false
              [VObj 7; VObj 8] []) as [_ E].
  - vm_compute; reflexivity.
  - rewrite E. split; vm_compute; reflexivity.
Defined.

(** X4. A successful registration writes one entry: the other names of
    the dispatcher, every other dispatcher, the specs, the attachments and
    the warnings are as before. *)
Theorem registration_keeps_other_entries
    (w w' : World) (self : ref) (name : string) (hook r : Callable) (skip : bool) :
  HookDispatcher.register_hook_with_name self name hook skip w = (Ok r, w') →
  (∀ n : string, n ≠ name → _hooks w' self !! n = _hooks w self !! n)
  ∧ (∀ d : ref, d ≠ self → _hooks w' d = _hooks w d)
  ∧ dom (_hooks w' self) = {[name]} ∪ dom (_hooks w self)
  ∧ _specs w' = _specs w
  ∧ fn_attrs w' = fn_attrs w
  ∧ emitted w' = emitted w.
Proof.
  intros E. apply register_Ok_inv in E as [-> ->].
  split; [|split; [|split]].
  - intros n Hn. rewrite hooks_store_hook_eq. by rewrite lookup_insert_ne.
  - intros d Hd. by apply hooks_store_hook_ne.
  - rewrite hooks_store_hook_eq. apply dom_insert_L.
  - done.
Qed.

Lemma registration_keeps_other_entries_witness :
  _hooks (store_hook GLOBAL_HOOK_DISPATCHER "before_generate_query" replacement imported)
    GLOBAL_HOOK_DISPATCHER !! "before_generate_headers"
  = _hooks imported GLOBAL_HOOK_DISPATCHER !! "before_generate_headers".
Proof.
  eapply (registration_keeps_other_entries imported _ GLOBAL_HOOK_DISPATCHER
            "before_generate_query" replacement replacement false).
  - vm_compute; reflexivity.
  - discriminate.
Defined.

(** ** Declaring specs *)

(** X5. [register_spec] declares the name of the function it is given
    with that function's parameters, in place of whatever was declared
    under the name, and returns the function; other names and all
    registered hooks stay. From then on, validated registration under
    the name accepts exactly the callables with as many parameters. *)
Theorem register_spec_declares
    (w : World) (spec : Callable) (self : ref) (hook : Callable) :
  ∃ w1 : World,
    HookDispatcher.register_spec spec w = (Ok spec, w1)
    ∧ _specs w1 !! __name__ spec = Some (parameters spec)
    ∧ (∀ n : string, n ≠ __name__ spec → _specs w1 !! n = _specs w !! n)
    ∧ heap w1 = heap w
    ∧ (length (parameters hook) = length (parameters spec) →
       HookDispatcher.register_hook_with_name self (__name__ spec) hook false w1
       = (Ok hook, store_hook self (__name__ spec) hook w1))
    ∧ (length (parameters hook) ≠ length (parameters spec) →
       HookDispatcher.register_hook_with_name self (__name__ spec) hook false w1
       = (Raise (TypeError
            ("Hook '" ++ __name__ spec ++ "' takes "
             ++ pretty (length (parameters spec)) ++ " arguments but "
             ++ pretty (length (parameters hook)) ++ " is defined")), w1)).
Proof.
  eexists. split; [reflexivity|]. simpl.
  assert (<[__name__ spec := parameters spec]> (_specs w) !! __name__ spec
          = Some (parameters spec)) as Hs by apply lookup_insert_eq.
  split; [exact Hs|]. split; [|split; [done|split]].
  - intros n Hn. by rewrite lookup_insert_ne.
  - intros Hl. apply register_conforming. by exists (parameters spec).
  - intros Hl. apply register_rejected.
    by apply (validate_mismatch _ _ _ (parameters spec)).
Qed.

(** ** The module-level [register] *)

(** X6. Called with no argument or with more than two, [register] raises
    the [TypeError] about the number of arguments and does nothing else:
    no warning, nothing stored. *)
Theorem register_rejects_other_argument_counts
    (members : list string) (args : list Arg) (w : World) :
  length args ≠ 1%nat →
  length args ≠ 2%nat →
  register members args w
  = (Raise (TypeError
       "Invalid number of arguments. Please, use `register` as a decorator."),
     w).
Proof.
  intros H1 H2.
  destruct args as [|a [|b [|c rest]]]; simpl in *; try done.
Qed.

Lemma register_rejects_other_argument_counts_witness :
  register declared_places [] imported
  = (Raise (TypeError
       "Invalid number of arguments. Please, use `register` as a decorator."),
     imported)
  ∧ register declared_places
      [AStr "query"; ACallable legacy_hook; ACallable replacement] imported
    = (Raise (TypeError
         "Invalid number of arguments. Please, use `register` as a decorator."),
       imported).
Proof.
  split.
  - apply (register_rejects_other_argument_counts declared_places [] imported);
      simpl; lia.
  - apply (register_rejects_other_argument_counts declared_places
             [AStr "query"; ACallable legacy_hook; ACallable replacement] imported);
      simpl; lia.
Defined.

(** X7. The two-argument form succeeds exactly when the place is a
    string among the recognized ones and the hook is a callable. Whatever
    the outcome, the warning about the two-argument form is emitted first,
    and specs and attachments stay; when the call fails, no dispatcher
    changes. A string in the place of the hook fails in
    [inspect.signature], after that one warning; a callable in the place
    of the place fails with [KeyError] of that callable. *)
Theorem two_argument_register_outcomes
    (members : list string) (place hook : Arg) (w : World) :
  ((∃ x, (register members [place; hook] w).1 = Ok x)
   ↔ ∃ (p : string) (h : Callable),
       place = AStr p ∧ p ∈ members ∧ hook = ACallable h)
  ∧ ((∀ x, (register members [place; hook] w).1 ≠ Ok x) →
     heap (register members [place; hook] w).2 = heap w)
  ∧ (∃ rest : list Warning,
       emitted (register members [place; hook] w).2
       = (emitted w ++ two_arguments_warning :: rest)%list)
  ∧ _specs (register members [place; hook] w).2 = _specs w
  ∧ fn_attrs (register members [place; hook] w).2 = fn_attrs w
  ∧ (∀ s : string,
       hook = AStr s →
       register members [place; hook] w
       = (Raise (NotCallable s), warned [two_arguments_warning] w))
  ∧ (∀ c h : Callable,
       place = ACallable c → hook = ACallable h →
       (register members [place; hook] w).1 = Raise (KeyError place)).
Proof.
  destruct hook as [s|h].
  - (* the hook is a string *)
    assert (register members [place; AStr s] w
            = (Raise (NotCallable s), warned [two_arguments_warning] w)) as E
      by reflexivity.
    rewrite E; simpl.
    split; [|split; [|split; [|split; [|split; [|split]]]]]; try done.
    + split; [intros [x Hx]; discriminate | intros (p & h & _ & _ & Hh); discriminate].
    + by exists [].
    + by intros s0 [= <-].
  - destruct place as [p|c].
    + (* a string as the place *)
      rewrite legacy_register_unfold.
      destruct (bool_decide (p ∈ members)) eqn:Hp.
      * apply bool_decide_eq_true_1 in Hp. simpl.
        split; [|split; [|split; [|split; [|split; [|split]]]]]; try done.
        -- split; [intros _; by exists p, h | intros _; by eexists].
        -- intros Hno. by destruct (Hno (HookDispatcher.Hook h)).
        -- eexists. reflexivity.
      * apply bool_decide_eq_false_1 in Hp. simpl.
        split; [|split; [|split; [|split; [|split; [|split]]]]]; try done.
        -- split; [intros [x Hx]; discriminate|].
           intros (p' & h' & [= <-] & Hin & _). done.
        -- eexists. reflexivity.
    + (* a callable as the place *)
      pose proof (legacy_warnings_run h w) as Ew.
      assert (register members [ACallable c; ACallable h] w
              = (Raise (KeyError (ACallable c)), warned (legacy_warnings h) w)) as E.
      { unfold register, mbind, M_bind, bind in *.
        destruct (warn DeprecationWarning two_arguments_message w) as [[[]|e] w1];
          [|discriminate].
        destruct (warn_deprecated_hook h w1) as [[[]|e] w2]; [|discriminate].
        by injection Ew as ->. }
      rewrite E; simpl.
      split; [|split; [|split; [|split; [|split; [|split]]]]]; try done.
      * split; [intros [x Hx]; discriminate | intros (p & h' & Hp & _); discriminate].
      * eexists. reflexivity.
Qed.

(** X8. The one-argument form is the [register] of the global dispatcher:
    it does not depend on the recognized places, emits no warning,
    declares no spec, attaches nothing, and writes to no dispatcher but
    the global one; given a string it changes nothing at all. *)
Theorem one_argument_register_is_quiet
    (members members' : list string) (a : Arg) (w : World) :
  register members [a] w = register members' [a] w
  ∧ emitted (register members [a] w).2 = emitted w
  ∧ _specs (register members [a] w).2 = _specs w
  ∧ fn_attrs (register members [a] w).2 = fn_attrs w
  ∧ (∀ d : ref, d ≠ GLOBAL_HOOK_DISPATCHER →
       _hooks (register members [a] w).2 d = _hooks w d)
  ∧ (∀ s : string, a = AStr s → (register members [a] w).2 = w).
Proof.
  split; [reflexivity|].
  destruct a as [s|h]; simpl.
  - by repeat split.
  - unfold HookDispatcher.register.
    destruct (HookDispatcher.register_hook_with_name GLOBAL_HOOK_DISPATCHER
                (__name__ h) h false w) as [[r|e] w1] eqn:E.
    + rewrite (bind_Ok _ _ _ _ _ E).
      apply register_Ok_inv in E as [-> ->]; simpl.
      split; [done|]. split; [done|]. split; [done|]. split; [|done].
      intros d Hd. by apply hooks_store_hook_ne.
    + rewrite (bind_Raise _ _ _ _ _ E).
      destruct (validate_cases w (__name__ h) h) as [[Hc _]|[msg Hv]].
      * by rewrite register_conforming in E.
      * rewrite (register_rejected _ _ _ _ _ Hv) in E.
        injection E as <- <-. by repeat split.
Qed.

(** X9. The module-level functions compose on the global dispatcher:
    a conforming callable registered through [register] is what
    [dispatch] calls under the callable's name. Whatever the body of the
    hook wrote to the store, after [unregister_all] the module-level
    [dispatch] returns [None] under every name. Right after a reset of
    the registration the spec is still declared, so that the callable can
    be registered again. *)
Theorem global_register_dispatch_reset
    (members : list string) (w : World) (h : Callable)
    (args : list Value) (kwargs : list (string * Value)) :
  conforms w (__name__ h) h →
  ∃ w1 wd w2 : World,
    register members [ACallable h] w = (Ok (HookDispatcher.Hook h), w1)
    ∧ dispatch (__name__ h) args kwargs w1
      = (match (body h args kwargs (view w1)).1 with
         | Returned v => Ok v
         | Raised e => Raise (Propagated e)
         end, wd)
    ∧ wd = run_writes (body h args kwargs (view w1)).2 w1
    ∧ unregister_all wd = (Ok tt, w2)
    ∧ (∀ (n : string) args' kwargs',
         dispatch n args' kwargs' w2 = (Ok VNone, w2))
    ∧ register members [ACallable h] (unregister_all w1).2
      = (Ok (HookDispatcher.Hook h),
         store_hook GLOBAL_HOOK_DISPATCHER (__name__ h) h (unregister_all w1).2).
Proof.
  intros Hc.
  assert (∀ w0, conforms w0 (__name__ h) h →
            register members [ACallable h] w0
            = (Ok (HookDispatcher.Hook h),
               store_hook GLOBAL_HOOK_DISPATCHER (__name__ h) h w0)) as Hreg.
  { intros w0 Hc0. simpl. unfold HookDispatcher.register.
    by rewrite (bind_Ok _ _ _ _ _ (register_conforming _ _ _ _ Hc0)). }
  eexists _, _, _. split; [by apply Hreg|].
  split; [|split; [reflexivity|split; [reflexivity|split]]].
  - unfold dispatch. apply dispatch_registered.
    by rewrite hooks_store_hook_eq, lookup_insert_eq.
  - intros n args' kwargs'.
    unfold dispatch, HookDispatcher.dispatch, _hooks; simpl.
    by rewrite lookup_insert_eq.
  - apply Hreg. by eapply conforms_same_specs; [|exact Hc].
Qed.

Lemma global_register_dispatch_reset_witness :
  ∃ w1 wd w2 : World,
    register declared_places [ACallable resetting_hook] imported
    = (Ok (HookDispatcher.Hook resetting_hook), w1)
    ∧ dispatch "before_generate_query" [VObj 7; VObj 8] [] w1 = (Ok (VObj 8), wd)
    ∧ unregister_all wd = (Ok tt, w2)
    ∧ dispatch "before_generate_query" [VObj 7; VObj 8] [] w2 = (Ok VNone, w2).
Proof.
  destruct (global_register_dispatch_reset declared_places imported
              resetting_hook [VObj 7; VObj 8] [])
    as (w1 & wd & w2 & E1 & Ed & _ & E2 & E3 & _).
  - exists ["strategy"; "context"]. split; vm_compute; reflexivity.
  - exists w1, wd, w2. split; [exact E1|]. split; [exact Ed|].
    split; [exact E2 | apply E3].
Defined.

(** ** More on [apply] *)

(** X10. When the hook does not pass validation, the decorator of
    [apply] raises the [TypeError] of the validation and registers
    nothing, on any dispatcher; but a test function that had no dispatcher
    is left with a new, empty one attached. A test function that had one
    is left as it was. *)
Theorem failed_apply_still_attaches
    (w : World) (self : ref) (name : string) (hook func : Callable) :
  ¬ conforms w name hook →
  ∃ (msg : string) (w' : World) (d : ref),
    HookDispatcher.apply self name hook func w = (Raise (TypeError msg), w')
    ∧ fn_attrs w' !! obj_id func = Some d
    ∧ (∀ l : ref, _hooks w' l = _hooks w l)
    ∧ (fn_attrs w !! obj_id func = None →
       heap w !! d = None ∧ heap w' !! d = Some ∅)
    ∧ (∀ d0 : ref, fn_attrs w !! obj_id func = Some d0 → d = d0 ∧ w' = w).
Proof.
  intros Hnc.
  set (d := (with_dispatcher func w).1).
  set (w0 := (with_dispatcher func w).2).
  destruct (validate_cases w0 name hook) as [[Hc _]|[msg Hv]].
  { destruct Hnc. eapply conforms_same_specs; [|exact Hc].
    symmetry. apply with_dispatcher_specs. }
  exists msg, w0, d.
  split.
  { rewrite apply_unfold. fold d w0.
    by rewrite (register_rejected _ _ _ _ _ Hv). }
  split; [apply with_dispatcher_attached|].
  split; [intros l; apply with_dispatcher_hooks|].
  split.
  - intros E. split; [by apply with_dispatcher_creates|].
    unfold w0, d, with_dispatcher. rewrite E; simpl. apply lookup_insert_eq.
  - intros d0 E. unfold w0, d. by rewrite (with_dispatcher_reuses _ _ _ E).
Qed.

Lemma failed_apply_still_attaches_witness :
  ∃ (w' : World) (d : ref),
    HookDispatcher.apply GLOBAL_HOOK_DISPATCHER "before_generate_query"
      hook_with_three_parameters test_c imported
    = (Raise (TypeError
         "Hook 'before_generate_query' takes 2 arguments but 3 is defined"), w')
    ∧ fn_attrs w' !! obj_id test_c = Some d
    ∧ _hooks w' d = ∅.
Proof.
  destruct (failed_apply_still_attaches imported GLOBAL_HOOK_DISPATCHER
              "before_generate_query" hook_with_three_parameters test_c)
    as (msg & w' & d & E & Hd & Hh & Hnew & _).
  - intros (spec & Hs & Hl). vm_compute in Hs. injection Hs as <-.
    vm_compute in Hl. discriminate.
  - exists w', d.
    assert (heap w' !! d = Some ∅) as Hempty by (apply Hnew; vm_compute; reflexivity).
    split; [|split; [exact Hd | unfold _hooks; by rewrite Hempty]].
    rewrite E. f_equal.
    assert ((HookDispatcher.apply GLOBAL_HOOK_DISPATCHER "before_generate_query"
               hook_with_three_parameters test_c imported).1
            = Raise (TypeError
                "Hook 'before_generate_query' takes 2 arguments but 3 is defined"))
      as E' by (vm_compute; reflexivity).
    rewrite E in E'. exact E'.
Defined.

(** X11. Two test functions that have no dispatcher yet get two
    different ones from [apply], whichever dispatchers [apply] is called
    on: each holds the hook applied to its own function and nothing
    else. *)
Theorem apply_gives_each_function_its_own_dispatcher
    (w : World) (s1 s2 : ref) (n1 n2 : string) (h1 h2 f g : Callable) :
  conforms w n1 h1 →
  conforms w n2 h2 →
  obj_id f ≠ obj_id g →
  fn_attrs w !! obj_id f = None →
  fn_attrs w !! obj_id g = None →
  ∃ (w1 w2 : World) (df dg : ref),
    HookDispatcher.apply s1 n1 h1 f w = (Ok f, w1)
    ∧ HookDispatcher.apply s2 n2 h2 g w1 = (Ok g, w2)
    ∧ fn_attrs w2 !! obj_id f = Some df
    ∧ fn_attrs w2 !! obj_id g = Some dg
    ∧ df ≠ dg
    ∧ _hooks w2 df = {[n1 := h1]}
    ∧ _hooks w2 dg = {[n2 := h2]}.
Proof.
  intros Hc1 Hc2 Hfg Hf Hg.
  set (df := (with_dispatcher f w).1).
  set (w0 := (with_dispatcher f w).2).
  set (w1 := store_hook df n1 h1 w0).
  set (dg := (with_dispatcher g w1).1).
  set (w1' := (with_dispatcher g w1).2).
  exists w1, (store_hook dg n2 h2 w1'), df, dg.
  assert (heap w !! df = None) as Hdf by (by apply with_dispatcher_creates).
  assert (fn_attrs w1 !! obj_id g = None) as Hg1.
  { change (fn_attrs w1) with (fn_attrs w0). unfold w0.
    rewrite with_dispatcher_other_attrs by done. exact Hg. }
  assert (heap w1 !! dg = None) as Hdg by (by apply with_dispatcher_creates).
  assert (is_Some (heap w1 !! df)) as Hlive.
  { unfold w1, store_hook, set_hook; simpl. rewrite lookup_insert_eq. by eexists. }
  assert (df ≠ dg) as Hne.
  { intros Heq. rewrite Heq, Hdg in Hlive. by destruct Hlive. }
  assert (_hooks w df = ∅) as Hempty_f by (unfold _hooks; by rewrite Hdf).
  assert (_hooks w1 dg = ∅) as Hempty_g by (unfold _hooks; by rewrite Hdg).
  assert (conforms w1 n2 h2) as Hc2'.
  { eapply conforms_same_specs; [|exact Hc2]. apply with_dispatcher_specs. }
  split; [by apply apply_conforming|].
  split; [by apply apply_conforming|].
  split.
  { change (fn_attrs (store_hook dg n2 h2 w1')) with (fn_attrs w1').
    unfold w1'. rewrite with_dispatcher_other_attrs by done.
    apply with_dispatcher_attached. }
  split; [apply with_dispatcher_attached|].
  split; [exact Hne|].
  split.
  - rewrite hooks_store_hook_ne by done.
    unfold w1'. rewrite with_dispatcher_hooks.
    unfold w1. rewrite hooks_store_hook_eq.
    unfold w0. rewrite with_dispatcher_hooks, Hempty_f. apply insert_empty.
  - rewrite hooks_store_hook_eq.
    unfold w1'. rewrite with_dispatcher_hooks, Hempty_g. apply insert_empty.
Qed.

Lemma apply_gives_each_function_its_own_dispatcher_witness :
  ∃ (w1 w2 : World) (df dg : ref),
    HookDispatcher.apply GLOBAL_HOOK_DISPATCHER "before_generate_query"
      replacement test_c imported = (Ok test_c, w1)
    ∧ HookDispatcher.apply GLOBAL_HOOK_DISPATCHER "before_generate_headers"
        third_replacement test_a w1
      = (Ok test_a, w2)
    ∧ df ≠ dg
    ∧ _hooks w2 df = {[ "before_generate_query" := replacement ]}
    ∧ _hooks w2 dg = {[ "before_generate_headers" := third_replacement ]}.
Proof.
  destruct (apply_gives_each_function_its_own_dispatcher imported
              GLOBAL_HOOK_DISPATCHER GLOBAL_HOOK_DISPATCHER
              "before_generate_query" "before_generate_headers"
              replacement third_replacement test_c test_a)
    as (w1 & w2 & df & dg & E1 & E2 & _ & _ & Hne & Hf & Hg).
  - exists ["strategy"; "context"]. split; vm_compute; reflexivity.
  - exists ["strategy"; "context"]. split; vm_compute; reflexivity.
  - vm_compute. discriminate.
  - vm_compute; reflexivity.
  - vm_compute; reflexivity.
  - exists w1, w2, df, dg. by repeat split.
Defined.

(** ** Stacks of [apply] decorators *)

Lemma stored_stack_specs (d : ref) (stack : list (ref * string * Callable)) (w0 : World) :
  _specs (foldr (λ x acc, store_hook d x.1.2 x.2 acc) w0 stack) = _specs w0
  ∧ fn_attrs (foldr (λ x acc, store_hook d x.1.2 x.2 acc) w0 stack) = fn_attrs w0.
Proof. induction stack as [|x stack IH]; [done|]. simpl. exact IH. Qed.

Lemma stored_stack_hooks (d : ref) (stack : list (ref * string * Callable)) (w0 : World) :
  _hooks (foldr (λ x acc, store_hook d x.1.2 x.2 acc) w0 stack) d
  = foldr (λ x m, <[x.1.2 := x.2]> m) (_hooks w0 d) stack.
Proof.
  induction stack as [|x stack IH]; [done|].
  simpl. by rewrite hooks_store_hook_eq, IH.
Qed.

Lemma stored_stack_other (d l : ref) (stack : list (ref * string * Callable)) (w0 : World) :
  l ≠ d →
  _hooks (foldr (λ x acc, store_hook d x.1.2 x.2 acc) w0 stack) l = _hooks w0 l.
Proof.
  intros Hl. induction stack as [|x stack IH]; [done|].
  simpl. by rewrite hooks_store_hook_ne.
Qed.

Lemma topmost_entry_is_found
    (above below : list (ref * string * Callable)) (s : ref) (n : string)
    (h : Callable) (m : gmap string Callable) :
  n ∉ (λ x, x.1.2) <$> above →
  foldr (λ x m, <[x.1.2 := x.2]> m) m (above ++ (s, n, h) :: below)%list !! n
  = Some h.
Proof.
  induction above as [|x above IH]; simpl; intros Hn.
  - apply lookup_insert_eq.
  - apply not_elem_of_cons in Hn as [Hx Hn].
    rewrite lookup_insert_ne by done. by apply IH.
Qed.

Lemma decorated_apply_stack
    (stack : list (ref * string * Callable)) (w : World) (func : Callable) :
  stack ≠ [] →
  Forall (λ x, conforms w x.1.2 x.2) stack →
  decorated ((λ x, HookDispatcher.apply x.1.1 x.1.2 x.2) <$> stack) func w
  = (Ok func,
     foldr (λ x acc, store_hook (with_dispatcher func w).1 x.1.2 x.2 acc)
       (with_dispatcher func w).2 stack).
Proof.
  induction stack as [|x stack IH]; [done|].
  intros _ Hall. apply Forall_cons in Hall as [Hx Hall].
  destruct stack as [|y stack].
  - simpl. rewrite (bind_Ok _ _ w w func) by done.
    by apply apply_conforming.
  - specialize (IH ltac:(done) Hall).
    set (d := (with_dispatcher func w).1) in *.
    set (w0 := (with_dispatcher func w).2) in *.
    set (w1 := foldr (λ x acc, store_hook d x.1.2 x.2 acc) w0 (y :: stack)) in *.
    change (decorated
              ((λ x, HookDispatcher.apply x.1.1 x.1.2 x.2) <$> x :: y :: stack) func w)
      with ((decorated ((λ x, HookDispatcher.apply x.1.1 x.1.2 x.2) <$> y :: stack) func
               ≫= HookDispatcher.apply x.1.1 x.1.2 x.2) w).
    rewrite (bind_Ok _ _ _ _ _ IH).
    destruct (stored_stack_specs d (y :: stack) w0) as [Hs Ha].
    fold w1 in Hs, Ha.
    assert (fn_attrs w1 !! obj_id func = Some d) as Hd.
    { rewrite Ha. apply with_dispatcher_attached. }
    rewrite apply_conforming.
    + by rewrite (with_dispatcher_reuses _ _ _ Hd).
    + eapply conforms_same_specs; [|exact Hx].
      rewrite Hs. apply with_dispatcher_specs.
Qed.

(** X12. A stack of [apply] decorators with conforming hooks, of any
    height, written topmost first: decorating succeeds and returns the
    test function; its attached dispatcher holds the hooks that it had,
    overwritten by the stack's entries from the bottom upwards; no other
    dispatcher changes. Under each name the attached dispatcher so holds
    the hook of the topmost decorator for that name. *)
Theorem stacked_apply_registers_bottom_up
    (stack : list (ref * string * Callable)) (w : World) (func : Callable) :
  stack ≠ [] →
  Forall (λ x, conforms w x.1.2 x.2) stack →
  ∃ (w' : World) (d : ref),
    decorated ((λ x, HookDispatcher.apply x.1.1 x.1.2 x.2) <$> stack) func w
    = (Ok func, w')
    ∧ fn_attrs w' !! obj_id func = Some d
    ∧ _hooks w' d = foldr (λ x m, <[x.1.2 := x.2]> m) (_hooks w d) stack
    ∧ (∀ l : ref, l ≠ d → _hooks w' l = _hooks w l)
    ∧ (∀ (above below : list (ref * string * Callable))
         (s : ref) (n : string) (h : Callable),
         stack = (above ++ (s, n, h) :: below)%list →
         n ∉ (λ x, x.1.2) <$> above →
         _hooks w' d !! n = Some h).
Proof.
  intros Hne Hall.
  set (d := (with_dispatcher func w).1).
  set (w0 := (with_dispatcher func w).2).
  exists (foldr (λ x acc, store_hook d x.1.2 x.2 acc) w0 stack), d.
  assert (_hooks (foldr (λ x acc, store_hook d x.1.2 x.2 acc) w0 stack) d
          = foldr (λ x m, <[x.1.2 := x.2]> m) (_hooks w d) stack) as Hh.
  { rewrite stored_stack_hooks. unfold w0. by rewrite with_dispatcher_hooks. }
  split; [by apply decorated_apply_stack|].
  split.
  { destruct (stored_stack_specs d stack w0) as [_ ->].
    apply with_dispatcher_attached. }
  split; [exact Hh|]. split.
  - intros l Hl. rewrite stored_stack_other by done.
    apply with_dispatcher_hooks.
  - intros above below s n h -> Hn. rewrite Hh.
    by apply topmost_entry_is_found.
Qed.

Lemma stacked_apply_registers_bottom_up_witness :
  ∃ (w' : World) (d : ref),
    decorated
      [HookDispatcher.apply GLOBAL_HOOK_DISPATCHER "before_generate_query"
         another_replacement;
       HookDispatcher.apply GLOBAL_HOOK_DISPATCHER "before_generate_query"
         replacement;
       HookDispatcher.apply GLOBAL_HOOK_DISPATCHER "before_generate_headers"
         third_replacement] test_c imported
    = (Ok test_c, w')
    ∧ fn_attrs w' !! obj_id test_c = Some d
    ∧ _hooks w' d !! "before_generate_query" = Some another_replacement
    ∧ _hooks w' d !! "before_generate_headers" = Some third_replacement.
Proof.
  destruct (stacked_apply_registers_bottom_up
              [(GLOBAL_HOOK_DISPATCHER, "before_generate_query", another_replacement);
               (GLOBAL_HOOK_DISPATCHER, "before_generate_query", replacement);
               (GLOBAL_HOOK_DISPATCHER, "before_generate_headers", third_replacement)]
              imported test_c)
    as (w' & d & E & Hd & _ & _ & Htop).
  - discriminate.
  - repeat (apply Forall_cons_2;
              [exists ["strategy"; "context"]; split; vm_compute; reflexivity|]).
    constructor.
  - exists w', d. split; [exact E|]. split; [exact Hd|]. split.
    + apply (Htop []
               [(GLOBAL_HOOK_DISPATCHER, "before_generate_query", replacement);
                (GLOBAL_HOOK_DISPATCHER, "before_generate_headers", third_replacement)]
               GLOBAL_HOOK_DISPATCHER "before_generate_query" another_replacement).
      * reflexivity.
      * apply not_elem_of_nil.
    + apply (Htop [(GLOBAL_HOOK_DISPATCHER, "before_generate_query", another_replacement);
                   (GLOBAL_HOOK_DISPATCHER, "before_generate_query", replacement)]
               [] GLOBAL_HOOK_DISPATCHER "before_generate_headers" third_replacement).
      * reflexivity.
      * apply (bool_decide_unpack _). vm_compute. exact I.
Defined.

(** ** The imported module *)

(** X13. Once the module is imported, validated registration, on any
    dispatcher, accepts a callable exactly when the name is one of the six
    declared ones and the callable has two parameters. The store then
    holds the global dispatcher, empty, and nothing else: no attachment
    and no warning. *)
Theorem imported_accepts_the_declared_hooks
    (self : ref) (name : string) (hook : Callable) :
  ((HookDispatcher.register_hook_with_name self name hook false imported).1 = Ok hook
   ↔ name ∈ declared_names ∧ length (parameters hook) = 2%nat)
  ∧ heap imported = {[GLOBAL_HOOK_DISPATCHER := ∅]}
  ∧ fn_attrs imported = ∅
  ∧ emitted imported = [].
Proof.
  split; [|by repeat split; vm_compute].
  assert (_specs imported
          = list_to_map ((λ n, (n, ["strategy"; "context"])) <$> declared_names))
    as Hs by (vm_compute; reflexivity).
  destruct (decide (name ∈ declared_names)) as [Hin|Hout].
  - assert (_specs imported !! name = Some ["strategy"; "context"]) as Hn.
    { simpl in Hin.
      repeat (apply elem_of_cons in Hin as [-> | Hin]; [by vm_compute|]).
      by apply elem_of_nil in Hin. }
    destruct (decide (length (parameters hook) = 2%nat)) as [Hl|Hl].
    + rewrite register_conforming by (by exists ["strategy"; "context"]).
      by split.
    + rewrite (register_rejected _ _ _ _ _
                 (validate_mismatch _ _ _ _ Hn ltac:(done))).
      split; [discriminate | by intros [_ ?]].
  - assert (_specs imported !! name = None) as Hn.
    { rewrite Hs. apply not_elem_of_list_to_map_1.
      rewrite <- list_fmap_compose. by rewrite list_fmap_id. }
    rewrite (register_rejected _ _ _ _ _ (validate_unknown _ _ _ Hn)).
    split; [discriminate | by intros [? _]].
Qed.
